(** * Shallow embedding of [relay/tcprelay/client.rs]

    The SOCKS5 client ([Socks5Client::connect], [Socks5Client::udp_associate])
    is modelled as a program in a small I/O monad: every operation on the
    [TcpStream] asks an environment (the proxy peer and the network) for its
    result, and the run records an event per operation, together with the
    result it produced, in a trace.  Early returns through [?], the panic of
    [assert_eq!], and the drop of the local [TcpStream] on every exit that
    does not move it into the returned client are written out.

    The duplex-stream wrappers ([AsyncRead]/[AsyncWrite] for [Socks5Client]
    and [ServerClient]) are modelled by a class of poll operations with
    explicit state passing. *)

From Stdlib Require Import List String ZArith Lia.
Import ListNotations.
Open Scope Z_scope.

(** ** Rust's [Result] and [io::Error] *)

Inductive result (A E : Type) : Type :=
| Ok (a : A)
| Err (e : E).
Arguments Ok {A E} a.
Arguments Err {A E} e.

(** The subset of [io::ErrorKind] used here. *)
Inductive ErrorKind :=
| NotFound | PermissionDenied | ConnectionRefused | ConnectionReset
| ConnectionAborted | NotConnected | AddrInUse | AddrNotAvailable
| BrokenPipe | InvalidInput | InvalidData | TimedOut | UnexpectedEof
| Other.

(** [io::Error]'s three representations: an OS error code, a bare kind,
    and a custom error built by [io::Error::new(kind, payload)]. *)
Inductive io_error :=
| IoOs (code : Z) (k : ErrorKind)
| IoSimple (k : ErrorKind)
| IoCustom (k : ErrorKind) (payload : string).

Definition io_error_kind (e : io_error) : ErrorKind :=
  match e with
  | IoOs _ k | IoSimple k | IoCustom k _ => k
  end.

(** ** The [socks5] data the client uses *)

Inductive SocketAddr :=
| SocketAddrV4 (ip : list Z) (port : Z)
| SocketAddrV6 (ip : list Z) (port : Z).

(** [socks5::Address]; the generic [A] with [Address: From<A>] of the
    source is taken already converted. *)
Inductive Address :=
| SocketAddress (a : SocketAddr)
| DomainNameAddress (host : string) (port : Z).

Definition SOCKS5_AUTH_METHOD_NONE : Z := 0x00.

Record HandshakeRequest := HandshakeRequest_new { methods : list Z }.
Record HandshakeResponse := { chosen_method : Z }.

Inductive Command := TcpConnect | TcpBind | UdpAssociate.

Inductive Reply :=
| Succeeded | GeneralFailure | ConnectionNotAllowed | NetworkUnreachable
| HostUnreachable | ConnectionRefusedReply | TtlExpired
| CommandNotSupported | AddressTypeNotSupported
| OtherReply (code : Z).

Record TcpRequestHeader := TcpRequestHeader_new
  { command : Command; req_address : Address }.
Record TcpResponseHeader := { reply : Reply; address : Address }.

(** A connected [TcpStream], as the handle the network hands out. *)
Definition TcpStream := nat.

(** Messages written with [write_to]. *)
Inductive Msg :=
| MHandshake (hs : HandshakeRequest)
| MRequest (h : TcpRequestHeader).

(** ** Traces *)

(** One event per operation, recorded once the operation has completed,
    with the result it produced; [EvDrop] is the drop of the stream. *)
Inductive event :=
| EvConnect (proxy : SocketAddr) (r : result TcpStream io_error)
| EvWrite (s : TcpStream) (m : Msg) (r : result unit io_error)
| EvFlush (s : TcpStream) (r : result unit io_error)
| EvReadHs (s : TcpStream) (r : result HandshakeResponse io_error)
| EvReadHdr (s : TcpStream) (r : result TcpResponseHeader io_error)
| EvDrop (s : TcpStream).

(** The environment: the answer to each operation may depend on the whole
    history of the session so far. *)
Record Env := {
  env_connect : list event -> SocketAddr -> result TcpStream io_error;
  env_write : list event -> TcpStream -> Msg -> result unit io_error;
  env_flush : list event -> TcpStream -> result unit io_error;
  env_read_hs : list event -> TcpStream -> result HandshakeResponse io_error;
  env_read_hdr : list event -> TcpStream -> result TcpResponseHeader io_error
}.

(** How an [async fn] call ends: it returns [Ok], returns [Err], or panics. *)
Inductive outcome (A : Type) :=
| ORet (a : A)
| OErr (e : io_error)
| OPanic.
Arguments ORet {A} a.
Arguments OErr {A} e.
Arguments OPanic {A}.

Section Client.

Variable env : Env.
(** [format!("{}", r)] for a [Reply]: the [Display] of [socks5::Reply]. *)
Variable reply_display : Reply -> string.

(** ** The I/O monad: state is the trace so far *)

Definition M (A : Type) := list event -> outcome A * list event.

Definition ret {A} (a : A) : M A := fun h => (ORet a, h).

Definition bind {A B} (m : M A) (k : A -> M B) : M B :=
  fun h =>
    match m h with
    | (ORet a, h') => k a h'
    | (OErr e, h') => (OErr e, h')
    | (OPanic, h') => (OPanic, h')
    end.

Notation "x <- m ;; k" := (bind m (fun x => k))
  (at level 61, m at next level, right associativity).
Notation "m ;;; k" := (bind m (fun _ => k))
  (at level 61, right associativity).

(** [return Err(e)] *)
Definition fail {A} (e : io_error) : M A := fun h => (OErr e, h).

(** [expr.await?] on an operation answered by the environment. *)
Definition lift {A} (r : result A io_error) (ev : event) : M A :=
  fun h =>
    match r with
    | Ok a => (ORet a, h ++ [ev])
    | Err e => (OErr e, h ++ [ev])
    end.

Definition tcp_connect (proxy : SocketAddr) : M TcpStream :=
  fun h => let r := env_connect env h proxy in lift r (EvConnect proxy r) h.

(** [hs.write_to(&mut s)] and [h.write_to(&mut s)]. *)
Definition write_to (s : TcpStream) (m : Msg) : M unit :=
  fun h => let r := env_write env h s m in lift r (EvWrite s m r) h.

Definition flush (s : TcpStream) : M unit :=
  fun h => let r := env_flush env h s in lift r (EvFlush s r) h.

Definition HandshakeResponse_read_from (s : TcpStream) : M HandshakeResponse :=
  fun h => let r := env_read_hs env h s in lift r (EvReadHs s r) h.

Definition TcpResponseHeader_read_from (s : TcpStream) : M TcpResponseHeader :=
  fun h => let r := env_read_hdr env h s in lift r (EvReadHdr s r) h.

(** [assert_eq!(a, b)] panics when the two differ. *)
Definition assert_eq (a b : Z) : M unit :=
  fun h => if Z.eqb a b then (ORet tt, h) else (OPanic, h).

(** The local [s] owned by the body: it is dropped (closing the socket) on
    every exit except the one that moves it into the returned value.  A
    panic unwinds, which drops it as well. *)
Definition owning {A} (s : TcpStream) (body : M A) : M A :=
  fun h =>
    match body h with
    | (ORet a, h') => (ORet a, h')
    | (OErr e, h') => (OErr e, h' ++ [EvDrop s])
    | (OPanic, h') => (OPanic, h' ++ [EvDrop s])
    end.

(** ** [Socks5Client] *)

Record Socks5Client := { stream : TcpStream }.

(** [match hp.reply { Succeeded => (), r => return Err(..) }] *)
Definition check_reply (r : Reply) : M unit :=
  match r with
  | Succeeded => ret tt
  | r => fail (IoCustom Other (reply_display r))
  end.

(** [Socks5Client::connect] (client.rs, lines 34-68). *)
Definition connect (addr : Address) (proxy : SocketAddr) : M Socks5Client :=
  s <- tcp_connect proxy ;;
  owning s (
    let hs := HandshakeRequest_new [SOCKS5_AUTH_METHOD_NONE] in
    write_to s (MHandshake hs) ;;;
    hsp <- HandshakeResponse_read_from s ;;
    assert_eq (chosen_method hsp) SOCKS5_AUTH_METHOD_NONE ;;;
    let h := TcpRequestHeader_new TcpConnect addr in
    write_to s (MRequest h) ;;;
    hp <- TcpResponseHeader_read_from s ;;
    check_reply (reply hp) ;;;
    ret {| stream := s |}).

(** [Socks5Client::udp_associate] (client.rs, lines 71-107). *)
Definition udp_associate (addr : Address) (proxy : SocketAddr)
  : M (Socks5Client * Address) :=
  s <- tcp_connect proxy ;;
  owning s (
    let hs := HandshakeRequest_new [SOCKS5_AUTH_METHOD_NONE] in
    write_to s (MHandshake hs) ;;;
    flush s ;;;
    hsp <- HandshakeResponse_read_from s ;;
    assert_eq (chosen_method hsp) SOCKS5_AUTH_METHOD_NONE ;;;
    let h := TcpRequestHeader_new UdpAssociate addr in
    write_to s (MRequest h) ;;;
    flush s ;;;
    hp <- TcpResponseHeader_read_from s ;;
    check_reply (reply hp) ;;;
    ret ({| stream := s |}, address hp)).

(** Running an operation from the start of a session. *)
Definition run {A} (m : M A) : outcome A * list event := m [].

End Client.

(** ** Reading traces *)

(** The shape of an event: the operation, without stream handle or result. *)
Inductive step :=
| StConnect (proxy : SocketAddr)
| StWrite (m : Msg)
| StFlush
| StReadHs
| StReadHdr
| StDrop.

Definition shape (e : event) : step :=
  match e with
  | EvConnect p _ => StConnect p
  | EvWrite _ m _ => StWrite m
  | EvFlush _ _ => StFlush
  | EvReadHs _ _ => StReadHs
  | EvReadHdr _ _ => StReadHdr
  | EvDrop _ => StDrop
  end.

Definition is_ok {A E} (r : result A E) : bool :=
  match r with Ok _ => true | Err _ => false end.

(** Whether the operation of an event completed successfully. *)
Definition event_ok (e : event) : bool :=
  match e with
  | EvConnect _ r => is_ok r
  | EvWrite _ _ r | EvFlush _ r => is_ok r
  | EvReadHs _ r => is_ok r
  | EvReadHdr _ r => is_ok r
  | EvDrop _ => true
  end.

Definition is_drop (e : event) : bool :=
  match e with EvDrop _ => true | _ => false end.

(** The I/O operations of a trace: everything but the drop. *)
Definition io_events (tr : list event) : list event :=
  filter (fun e => negb (is_drop e)) tr.

(** Every operation but the last one completed successfully. *)
Fixpoint ok_but_last (l : list event) : bool :=
  match l with
  | [] | [_] => true
  | e :: l' => event_ok e && ok_but_last l'
  end.

(** The handshake request both operations build. *)
Definition hs_none : HandshakeRequest :=
  HandshakeRequest_new [SOCKS5_AUTH_METHOD_NONE].

(** The four steps of a session (after the TCP connection): write the
    handshake, read its response, write the request, read its response. *)
Definition session_steps (cmd : Command) (addr : Address) (proxy : SocketAddr)
  : list step :=
  [StConnect proxy; StWrite (MHandshake hs_none); StReadHs;
   StWrite (MRequest (TcpRequestHeader_new cmd addr)); StReadHdr].

(** The same steps with a flush after every write. *)
Fixpoint with_flush (l : list step) : list step :=
  match l with
  | [] => []
  | StWrite m :: l' => StWrite m :: StFlush :: with_flush l'
  | x :: l' => x :: with_flush l'
  end.

(** A trace is a strictly sequential run of [steps]: its operations are a
    prefix of [steps], each one issued after the previous one completed
    successfully, and the only other event is a final drop of the stream. *)
Definition sequential_run (steps : list step) (tr : list event) : Prop :=
  (exists n, map shape (io_events tr) = firstn n steps) /\
  ok_but_last (io_events tr) = true /\
  (tr = io_events tr \/ exists s, tr = io_events tr ++ [EvDrop s]).

(** A peer that accepts every operation, choosing [method] in its handshake
    response and answering the request with [rep] and [bound]. *)
Definition scripted_env (method : Z) (rep : Reply) (bound : Address) : Env := {|
  env_connect := fun _ _ => Ok 3%nat;
  env_write := fun _ _ _ => Ok tt;
  env_flush := fun _ _ => Ok tt;
  env_read_hs := fun _ _ => Ok {| chosen_method := method |};
  env_read_hdr := fun _ _ => Ok {| reply := rep; address := bound |}
|}.

(** The network refuses the connection to the proxy with error [e]. *)
Definition refusing_env (e : io_error) : Env := {|
  env_connect := fun _ _ => Err e;
  env_write := fun _ _ _ => Ok tt;
  env_flush := fun _ _ => Ok tt;
  env_read_hs := fun _ _ => Ok {| chosen_method := SOCKS5_AUTH_METHOD_NONE |};
  env_read_hdr := fun _ _ => Err e
|}.

Definition proxy0 : SocketAddr := SocketAddrV4 [127; 0; 0; 1] 1080.
Definition target0 : Address := DomainNameAddress "example.com" 443.
Definition bound0 : Address := SocketAddress (SocketAddrV4 [0; 0; 0; 0] 0).
Definition display0 (r : Reply) : string :=
  match r with Succeeded => "succeeded" | _ => "failed" end.

(** The handshake requests written in a trace. *)
Definition hs_writes (tr : list event) : list HandshakeRequest :=
  flat_map (fun e => match e with
                     | EvWrite _ (MHandshake hs) _ => [hs]
                     | _ => []
                     end) tr.

(** Whether the TCP connection to the proxy was established. *)
Definition connected (tr : list event) : bool :=
  existsb (fun e => match e with EvConnect _ (Ok _) => true | _ => false end) tr.

(** Whether a trace writes a connection request. *)
Definition writes_request (tr : list event) : bool :=
  existsb (fun e => match e with EvWrite _ (MRequest _) _ => true | _ => false end) tr.




(** The stream an event acts on ([EvConnect] names the stream it opened). *)
Definition ev_stream (e : event) : option TcpStream :=
  match e with
  | EvConnect _ (Ok s) => Some s
  | EvConnect _ (Err _) => None
  | EvWrite s _ _ | EvFlush s _ | EvReadHs s _ | EvReadHdr s _ | EvDrop s => Some s
  end.

(** How many times a trace drops (closes) a stream. *)
Definition drops (tr : list event) : nat := List.length (filter is_drop tr).

(** ** The duplex-stream wrappers *)

Module Duplex.

Inductive Poll (A : Type) := Ready (a : A) | Pending.
Arguments Ready {A} a.
Arguments Pending {A}.

(** [task::Context]: the waker of the polling task. *)
Record Context := { waker : nat }.

(** [tokio::io::AsyncRead]: [poll_read] fills the caller's buffer and
    returns how many bytes it read; the stream's state is passed explicitly. *)
Class AsyncRead (T : Type) := {
  poll_read : T -> Context -> list Z -> Poll (result nat io_error) * (T * list Z)
}.

(** [tokio::io::AsyncWrite]. *)
Class AsyncWrite (T : Type) := {
  poll_write : T -> Context -> list Z -> Poll (result nat io_error) * T;
  poll_flush : T -> Context -> Poll (result unit io_error) * T;
  poll_shutdown : T -> Context -> Poll (result unit io_error) * T
}.

(** A call a caller makes on a duplex stream, and what it observes. *)
Inductive io_op :=
| OpRead (cx : Context) (buf : list Z)
| OpWrite (cx : Context) (buf : list Z)
| OpFlush (cx : Context)
| OpShutdown (cx : Context).

Inductive io_obs :=
| ObsRead (r : Poll (result nat io_error)) (buf : list Z)
| ObsWrite (r : Poll (result nat io_error))
| ObsFlush (r : Poll (result unit io_error))
| ObsShutdown (r : Poll (result unit io_error)).

(** What a caller observes performing [ops] in order on a stream. *)
Fixpoint observe {T} `{AsyncRead T} `{AsyncWrite T} (t : T) (ops : list io_op)
  : list io_obs :=
  match ops with
  | [] => []
  | OpRead cx buf :: ops' =>
      let '(r, (t', buf')) := poll_read t cx buf in ObsRead r buf' :: observe t' ops'
  | OpWrite cx buf :: ops' =>
      let '(r, t') := poll_write t cx buf in ObsWrite r :: observe t' ops'
  | OpFlush cx :: ops' =>
      let '(r, t') := poll_flush t cx in ObsFlush r :: observe t' ops'
  | OpShutdown cx :: ops' =>
      let '(r, t') := poll_shutdown t cx in ObsShutdown r :: observe t' ops'
  end.

Section Wrappers.

(** [tokio::net::TcpStream] and [ProxyStream], with their poll operations. *)
Variables TcpStream ProxyStream : Type.
Context `{AsyncRead TcpStream} `{AsyncWrite TcpStream}.
Context `{AsyncRead ProxyStream} `{AsyncWrite ProxyStream}.

(** [struct Socks5Client { stream: TcpStream }] *)
Record Socks5Client := { stream : TcpStream }.
(** [struct ServerClient { stream: ProxyStream }] *)
Record ServerClient := { server_stream : ProxyStream }.

(** [Pin::new(&mut self.stream).poll_xxx(cx, ..)] for [Socks5Client]
    (client.rs, lines 110-128). *)
Instance Socks5Client_AsyncRead : AsyncRead Socks5Client := {
  poll_read c cx buf :=
    let '(r, (s', buf')) := poll_read (stream c) cx buf in
    (r, ({| stream := s' |}, buf'))
}.

Instance Socks5Client_AsyncWrite : AsyncWrite Socks5Client := {
  poll_write c cx buf :=
    let '(r, s') := poll_write (stream c) cx buf in (r, {| stream := s' |});
  poll_flush c cx :=
    let '(r, s') := poll_flush (stream c) cx in (r, {| stream := s' |});
  poll_shutdown c cx :=
    let '(r, s') := poll_shutdown (stream c) cx in (r, {| stream := s' |})
}.

(** The same for [ServerClient] (client.rs, lines 143-161). *)
Instance ServerClient_AsyncRead : AsyncRead ServerClient := {
  poll_read c cx buf :=
    let '(r, (s', buf')) := poll_read (server_stream c) cx buf in
    (r, ({| server_stream := s' |}, buf'))
}.

Instance ServerClient_AsyncWrite : AsyncWrite ServerClient := {
  poll_write c cx buf :=
    let '(r, s') := poll_write (server_stream c) cx buf in
    (r, {| server_stream := s' |});
  poll_flush c cx :=
    let '(r, s') := poll_flush (server_stream c) cx in
    (r, {| server_stream := s' |});
  poll_shutdown c cx :=
    let '(r, s') := poll_shutdown (server_stream c) cx in
    (r, {| server_stream := s' |})
}.

End Wrappers.

Section ServerConnect.

Variables ProxyStream SharedContext ServerConfig : Type.
(** [ProxyStream::connect_proxied(context, svr_cfg, addr).await]: the
    encrypted transport's constructor, outside this file. *)
Variable connect_proxied :
  SharedContext -> ServerConfig -> Address -> result ProxyStream io_error.

(** [ServerClient::connect] (client.rs, lines 137-140). *)
Definition ServerClient_connect (context : SharedContext) (addr : Address)
    (svr_cfg : ServerConfig) : result (ServerClient ProxyStream) io_error :=
  match connect_proxied context svr_cfg addr with
  | Ok stream => Ok {| server_stream := stream |}
  | Err e => Err e
  end.

End ServerConnect.

#[export] Existing Instances Socks5Client_AsyncRead Socks5Client_AsyncWrite
  ServerClient_AsyncRead ServerClient_AsyncWrite.

(** An in-memory loopback stream: what is written is read back. *)
Instance Loopback_AsyncRead : AsyncRead (list Z) := {
  poll_read l cx buf :=
    match l with
    | [] => (Pending, (l, buf))
    | _ =>
        let n := Nat.min (List.length buf) (List.length l) in
        (Ready (Ok n), (skipn n l, firstn n l ++ skipn n buf))
    end
}.

Instance Loopback_AsyncWrite : AsyncWrite (list Z) := {
  poll_write l cx buf := (Ready (Ok (List.length buf)), l ++ buf);
  poll_flush l cx := (Ready (Ok tt), l);
  poll_shutdown l cx := (Ready (Ok tt), l)
}.

Definition cx0 : Context := {| waker := 0 |}.

Definition ops0 : list io_op :=
  [OpRead cx0 [0; 0]; OpWrite cx0 [104; 105; 33]; OpFlush cx0;
   OpRead cx0 [0; 0]; OpRead cx0 [0; 0]; OpShutdown cx0; OpShutdown cx0].
End Duplex.

(** ** Case analysis over every answer of the environment *)

Ltac env_cases :=
  repeat match goal with
  | |- context [env_connect ?e ?h ?p] => destruct (env_connect e h p)
  | |- context [env_write ?e ?h ?s ?m] => destruct (env_write e h s m)
  | |- context [env_flush ?e ?h ?s] => destruct (env_flush e h s)
  | |- context [env_read_hs ?e ?h ?s] => destruct (env_read_hs e h s)
  | |- context [env_read_hdr ?e ?h ?s] => destruct (env_read_hdr e h s)
  | |- context [Z.eqb (chosen_method ?x) ?y] => destruct (Z.eqb (chosen_method x) y)
  | |- context [reply ?x] => destruct (reply x)
  end.

Ltac unfold_client :=
  unfold run, connect, udp_associate, owning, tcp_connect, write_to, flush,
    HandshakeResponse_read_from, TcpResponseHeader_read_from, assert_eq,
    check_reply, bind, ret, fail, lift; cbn.

Ltac find_prefix :=
  first [ exists 0%nat; reflexivity | exists 1%nat; reflexivity
        | exists 2%nat; reflexivity | exists 3%nat; reflexivity
        | exists 4%nat; reflexivity | exists 5%nat; reflexivity
        | exists 6%nat; reflexivity | exists 7%nat; reflexivity ].

Ltac solve_sequential :=
  unfold sequential_run; cbn;
  repeat split; try find_prefix;
  first [ left; reflexivity | right; eexists; reflexivity ].

Ltac exists_prefix :=
  match goal with
  | |- exists pre, ?tr = pre ++ ?l =>
      exists (firstn (List.length tr - List.length l) tr); reflexivity
  end.

Ltac env_cases_eqn :=
  repeat match goal with
  | |- context [env_connect ?e ?h ?p] => destruct (env_connect e h p)
  | |- context [env_write ?e ?h ?s ?m] => destruct (env_write e h s m)
  | |- context [env_flush ?e ?h ?s] => destruct (env_flush e h s)
  | |- context [env_read_hs ?e ?h ?s] => destruct (env_read_hs e h s)
  | |- context [env_read_hdr ?e ?h ?s] => destruct (env_read_hdr e h s)
  | |- context [Z.eqb (chosen_method ?x) ?y] =>
      let E := fresh "Em" in destruct (Z.eqb (chosen_method x) y) eqn:E
  | |- context [match reply ?x with _ => _ end] =>
      let E := fresh "Er" in destruct (reply x) eqn:E
  end.

Ltac finish_cases :=
  cbn in *;
  repeat match goal with
  | H : (_ =? _) = true |- _ => apply Z.eqb_eq in H
  | H : (_ =? _) = false |- _ => apply Z.eqb_neq in H
  end;
  intuition (try congruence).



(** C6: in every run of [connect] and of [udp_associate], the operations
    performed are a prefix of the session's steps, each at most once and in
    order (one method negotiation, one command negotiation, no loop, no
    fallback); each operation is issued only after the previous one
    completed successfully, and the only other event is a final drop. *)
Theorem handshake_strictly_sequential :
  forall env disp addr proxy,
    sequential_run (session_steps TcpConnect addr proxy)
      (snd (run (connect env disp addr proxy))) /\
    sequential_run (with_flush (session_steps UdpAssociate addr proxy))
      (snd (run (udp_associate env disp addr proxy))).
Proof.
  intros env disp addr proxy.
  split; unfold_client; env_cases; solve_sequential.
Qed.

(** C3 (code_bug): [connect] never flushes the stream, so the read of
    each response follows its write without a flush; evaluated on a peer
    that accepts everything, its operations are exactly connect, write the
    handshake, read, write the request, read. *)
Theorem connect_reads_without_flush :
  (forall env disp addr proxy,
     ~ In StFlush (map shape (snd (run (connect env disp addr proxy))))) /\
  map shape (snd (run (connect (scripted_env SOCKS5_AUTH_METHOD_NONE Succeeded bound0)
                         display0 target0 proxy0))) =
  [StConnect proxy0; StWrite (MHandshake hs_none); StReadHs;
   StWrite (MRequest (TcpRequestHeader_new TcpConnect target0)); StReadHdr].
Proof.
  split.
  - intros env disp addr proxy.
    unfold_client; env_cases; simpl; intuition discriminate.
  - reflexivity.
Qed.

(** C4: [udp_associate] runs the session steps of [connect] with command
    [UdpAssociate] and a flush after each of its two writes, each flush
    completing before the following read is issued. *)
Theorem udp_associate_flushes_each_write :
  forall env disp addr proxy,
    with_flush (session_steps UdpAssociate addr proxy) =
      [StConnect proxy; StWrite (MHandshake hs_none); StFlush; StReadHs;
       StWrite (MRequest (TcpRequestHeader_new UdpAssociate addr)); StFlush;
       StReadHdr] /\
    sequential_run (with_flush (session_steps UdpAssociate addr proxy))
      (snd (run (udp_associate env disp addr proxy))).
Proof.
  intros env disp addr proxy. split; [reflexivity |].
  unfold_client; env_cases; solve_sequential.
Qed.

(** C5: when [udp_associate] succeeds, the address it returns is the
    address field of the (Succeeded) response header read from the peer. *)
Theorem udp_associate_returns_bound_address :
  forall env disp addr proxy c a,
    fst (run (udp_associate env disp addr proxy)) = ORet (c, a) ->
    exists hp, In (EvReadHdr (stream c) (Ok hp))
                 (snd (run (udp_associate env disp addr proxy))) /\
               reply hp = Succeeded /\ a = address hp.
Proof.
  intros env disp addr proxy c a.
  unfold_client; env_cases_eqn; cbn; intro H; try discriminate H.
  injection H as <- <-. eexists. split; [simpl; tauto | auto].
Qed.

Lemma udp_associate_returns_bound_address_witness :
  fst (run (udp_associate (scripted_env SOCKS5_AUTH_METHOD_NONE Succeeded bound0)
              display0 target0 proxy0)) = ORet ({| stream := 3%nat |}, bound0) /\
  exists hp, In (EvReadHdr 3%nat (Ok hp))
               (snd (run (udp_associate (scripted_env SOCKS5_AUTH_METHOD_NONE Succeeded bound0)
                            display0 target0 proxy0))) /\
             reply hp = Succeeded /\ bound0 = address hp.
Proof.
  split; [reflexivity |].
  apply (udp_associate_returns_bound_address
           (scripted_env SOCKS5_AUTH_METHOD_NONE Succeeded bound0) display0
           target0 proxy0 {| stream := 3%nat |} bound0).
  reflexivity.
Defined.

(** C9: the handshake request offers exactly the "no authentication"
    method, and each session writes it exactly once when the TCP connection
    was established, and never otherwise. *)
Theorem handshake_offers_only_no_auth_once :
  methods hs_none = [SOCKS5_AUTH_METHOD_NONE] /\
  forall env disp addr proxy,
    hs_writes (snd (run (connect env disp addr proxy))) =
      (if connected (snd (run (connect env disp addr proxy))) then [hs_none] else []) /\
    hs_writes (snd (run (udp_associate env disp addr proxy))) =
      (if connected (snd (run (udp_associate env disp addr proxy))) then [hs_none] else []).
Proof.
  split; [reflexivity |]. intros env disp addr proxy.
  split; unfold_client; env_cases; reflexivity.
Qed.

(** C1: counterexample.  A peer choosing method 0x02 (username/password)
    makes [connect] panic; no error value is returned. *)
Lemma connect_auth_mismatch_panics :
  fst (run (connect (scripted_env 2 Succeeded bound0) display0 target0 proxy0))
  = OPanic.
Proof. reflexivity. Qed.

(** C1 (amended): when the handshake response chooses a method other than
    "no authentication", [connect] and [udp_associate] panic through
    [assert_eq!], write no connection request, and drop the stream. *)
Theorem auth_mismatch_panics_before_request :
  forall env disp addr proxy s hsp,
    chosen_method hsp <> SOCKS5_AUTH_METHOD_NONE ->
    (In (EvReadHs s (Ok hsp)) (snd (run (connect env disp addr proxy))) ->
     fst (run (connect env disp addr proxy)) = OPanic /\
     writes_request (snd (run (connect env disp addr proxy))) = false /\
     last (snd (run (connect env disp addr proxy))) (EvDrop 0%nat) = EvDrop s) /\
    (In (EvReadHs s (Ok hsp)) (snd (run (udp_associate env disp addr proxy))) ->
     fst (run (udp_associate env disp addr proxy)) = OPanic /\
     writes_request (snd (run (udp_associate env disp addr proxy))) = false /\
     last (snd (run (udp_associate env disp addr proxy))) (EvDrop 0%nat) = EvDrop s).
Proof.
  intros env disp addr proxy s hsp Hm.
  split; unfold_client; env_cases_eqn; finish_cases.
Qed.

Lemma auth_mismatch_panics_before_request_witness :
  let env := scripted_env 2 Succeeded bound0 in
  fst (run (connect env display0 target0 proxy0)) = OPanic /\
  writes_request (snd (run (connect env display0 target0 proxy0))) = false /\
  last (snd (run (connect env display0 target0 proxy0))) (EvDrop 0%nat) = EvDrop 3%nat.
Proof.
  cbv zeta.
  apply (auth_mismatch_panics_before_request (scripted_env 2 Succeeded bound0)
           display0 target0 proxy0 3%nat {| chosen_method := 2 |}).
  - discriminate.
  - cbn; tauto.
Defined.

(** C2: once the response header [hp] has been read, the operation
    returns the client when the reply is Succeeded; for any other reply it
    returns the error carrying that reply's display, and nothing but the
    drop of the stream follows the read. *)
Theorem reply_code_decides_outcome :
  forall env disp addr proxy s hp,
    (In (EvReadHdr s (Ok hp)) (snd (run (connect env disp addr proxy))) ->
     (reply hp = Succeeded ->
        fst (run (connect env disp addr proxy)) = ORet {| stream := s |}) /\
     (reply hp <> Succeeded ->
        fst (run (connect env disp addr proxy)) = OErr (IoCustom Other (disp (reply hp))) /\
        exists pre, snd (run (connect env disp addr proxy)) =
                      pre ++ [EvReadHdr s (Ok hp); EvDrop s])) /\
    (In (EvReadHdr s (Ok hp)) (snd (run (udp_associate env disp addr proxy))) ->
     (reply hp = Succeeded ->
        fst (run (udp_associate env disp addr proxy)) = ORet ({| stream := s |}, address hp)) /\
     (reply hp <> Succeeded ->
        fst (run (udp_associate env disp addr proxy)) = OErr (IoCustom Other (disp (reply hp))) /\
        exists pre, snd (run (udp_associate env disp addr proxy)) =
                      pre ++ [EvReadHdr s (Ok hp); EvDrop s])).
Proof.
  intros env disp addr proxy s hp.
  split; unfold_client; env_cases_eqn; cbn; intro HIn;
    repeat (destruct HIn as [HIn | HIn]; try discriminate HIn);
    try contradiction;
    injection HIn as <- <-; rewrite Er;
    split; intro Hr; try congruence; split; try reflexivity; exists_prefix.
Qed.

Lemma reply_code_decides_outcome_witness :
  let env := scripted_env SOCKS5_AUTH_METHOD_NONE GeneralFailure bound0 in
  fst (run (connect env display0 target0 proxy0)) =
    OErr (IoCustom Other (display0 GeneralFailure)) /\
  exists pre, snd (run (connect env display0 target0 proxy0)) =
    pre ++ [EvReadHdr 3%nat (Ok {| reply := GeneralFailure; address := bound0 |});
            EvDrop 3%nat].
Proof.
  cbv zeta.
  apply (proj2 (proj1 (reply_code_decides_outcome
     (scripted_env SOCKS5_AUTH_METHOD_NONE GeneralFailure bound0) display0
     target0 proxy0 3%nat {| reply := GeneralFailure; address := bound0 |})
     ltac:(cbn; tauto))).
  discriminate.
Defined.

(** C10: a rejection is returned as [io::Error::new(Other, display)]: a
    plain [io_error] of kind [Other] with the display string as payload,
    equal to the error a transport failure (here the TCP connect) can yield. *)
Theorem rejection_is_generic_io_error :
  forall env disp addr proxy s hp,
    reply hp <> Succeeded ->
    (In (EvReadHdr s (Ok hp)) (snd (run (connect env disp addr proxy))) ->
     fst (run (connect env disp addr proxy)) = OErr (IoCustom Other (disp (reply hp))) /\
     io_error_kind (IoCustom Other (disp (reply hp))) = Other /\
     fst (run (connect (refusing_env (IoCustom Other (disp (reply hp)))) disp addr proxy))
       = OErr (IoCustom Other (disp (reply hp)))) /\
    (In (EvReadHdr s (Ok hp)) (snd (run (udp_associate env disp addr proxy))) ->
     fst (run (udp_associate env disp addr proxy)) = OErr (IoCustom Other (disp (reply hp))) /\
     io_error_kind (IoCustom Other (disp (reply hp))) = Other /\
     fst (run (udp_associate (refusing_env (IoCustom Other (disp (reply hp)))) disp addr proxy))
       = OErr (IoCustom Other (disp (reply hp)))).
Proof.
  intros env disp addr proxy s hp Hr.
  split; intro HIn; (split; [| split; reflexivity]); revert HIn;
    unfold_client; env_cases_eqn; cbn; intro HIn;
    repeat (destruct HIn as [HIn | HIn]; try discriminate HIn);
    try contradiction;
    injection HIn as <- <-; rewrite Er in *; congruence.
Qed.

Lemma rejection_is_generic_io_error_witness :
  let env := scripted_env SOCKS5_AUTH_METHOD_NONE ConnectionNotAllowed bound0 in
  fst (run (connect env display0 target0 proxy0)) =
    OErr (IoCustom Other (display0 ConnectionNotAllowed)) /\
  io_error_kind (IoCustom Other (display0 ConnectionNotAllowed)) = Other /\
  fst (run (connect (refusing_env (IoCustom Other (display0 ConnectionNotAllowed)))
              display0 target0 proxy0)) =
    OErr (IoCustom Other (display0 ConnectionNotAllowed)).
Proof.
  cbv zeta.
  apply (proj1 (rejection_is_generic_io_error
     (scripted_env SOCKS5_AUTH_METHOD_NONE ConnectionNotAllowed bound0) display0
     target0 proxy0 3%nat {| reply := ConnectionNotAllowed; address := bound0 |}
     ltac:(discriminate))).
  cbn; tauto.
Defined.



(** ** Further properties of [connect] and [udp_associate] *)

Ltac destruct_units :=
  repeat match goal with u : unit |- _ => destruct u end.

(** [connect] returns a client only after every step succeeded: the trace
    is exactly the five successful operations on the client's stream, the
    peer chose "no authentication" and replied Succeeded. *)
Theorem connect_success_trace :
  forall env disp addr proxy c,
    fst (run (connect env disp addr proxy)) = ORet c ->
    exists hsp hp,
      snd (run (connect env disp addr proxy)) =
        [EvConnect proxy (Ok (stream c));
         EvWrite (stream c) (MHandshake hs_none) (Ok tt);
         EvReadHs (stream c) (Ok hsp);
         EvWrite (stream c) (MRequest (TcpRequestHeader_new TcpConnect addr)) (Ok tt);
         EvReadHdr (stream c) (Ok hp)] /\
      chosen_method hsp = SOCKS5_AUTH_METHOD_NONE /\ reply hp = Succeeded.
Proof.
  intros env disp addr proxy c.
  unfold_client; env_cases_eqn; cbn; intro H; try discriminate H.
  injection H as <-. destruct_units.
  do 2 eexists; split; [reflexivity |].
  split; [apply Z.eqb_eq |]; assumption.
Qed.

Lemma connect_success_trace_witness :
  exists hsp hp,
    snd (run (connect (scripted_env SOCKS5_AUTH_METHOD_NONE Succeeded bound0)
                display0 target0 proxy0)) =
      [EvConnect proxy0 (Ok 3%nat);
       EvWrite 3%nat (MHandshake hs_none) (Ok tt);
       EvReadHs 3%nat (Ok hsp);
       EvWrite 3%nat (MRequest (TcpRequestHeader_new TcpConnect target0)) (Ok tt);
       EvReadHdr 3%nat (Ok hp)] /\
    chosen_method hsp = SOCKS5_AUTH_METHOD_NONE /\ reply hp = Succeeded.
Proof.
  apply (connect_success_trace
           (scripted_env SOCKS5_AUTH_METHOD_NONE Succeeded bound0) display0
           target0 proxy0 {| stream := 3%nat |}).
  reflexivity.
Defined.

(** [udp_associate] returns a client and an address only after every step
    succeeded, both flushes included: the trace is exactly the seven
    successful operations on the client's stream, and the address returned
    is the one of the Succeeded response. *)
Theorem udp_associate_success_trace :
  forall env disp addr proxy c a,
    fst (run (udp_associate env disp addr proxy)) = ORet (c, a) ->
    exists hsp hp,
      snd (run (udp_associate env disp addr proxy)) =
        [EvConnect proxy (Ok (stream c));
         EvWrite (stream c) (MHandshake hs_none) (Ok tt);
         EvFlush (stream c) (Ok tt);
         EvReadHs (stream c) (Ok hsp);
         EvWrite (stream c) (MRequest (TcpRequestHeader_new UdpAssociate addr)) (Ok tt);
         EvFlush (stream c) (Ok tt);
         EvReadHdr (stream c) (Ok hp)] /\
      chosen_method hsp = SOCKS5_AUTH_METHOD_NONE /\ reply hp = Succeeded /\
      a = address hp.
Proof.
  intros env disp addr proxy c a.
  unfold_client; env_cases_eqn; cbn; intro H; try discriminate H.
  injection H as <- <-. destruct_units.
  do 2 eexists; split; [reflexivity |].
  split; [apply Z.eqb_eq; assumption |]. auto.
Qed.

Lemma udp_associate_success_trace_witness :
  exists hsp hp,
    snd (run (udp_associate (scripted_env SOCKS5_AUTH_METHOD_NONE Succeeded bound0)
                display0 target0 proxy0)) =
      [EvConnect proxy0 (Ok 3%nat);
       EvWrite 3%nat (MHandshake hs_none) (Ok tt);
       EvFlush 3%nat (Ok tt);
       EvReadHs 3%nat (Ok hsp);
       EvWrite 3%nat (MRequest (TcpRequestHeader_new UdpAssociate target0)) (Ok tt);
       EvFlush 3%nat (Ok tt);
       EvReadHdr 3%nat (Ok hp)] /\
    chosen_method hsp = SOCKS5_AUTH_METHOD_NONE /\ reply hp = Succeeded /\
    bound0 = address hp.
Proof.
  apply (udp_associate_success_trace
           (scripted_env SOCKS5_AUTH_METHOD_NONE Succeeded bound0) display0
           target0 proxy0 {| stream := 3%nat |} bound0).
  reflexivity.
Defined.

(** When the TCP connection to the proxy fails, both operations return that
    very error and do nothing else: no write, no read, nothing to close. *)
Theorem proxy_unreachable_returns_connect_error :
  forall env disp addr proxy e,
    env_connect env [] proxy = Err e ->
    run (connect env disp addr proxy) = (OErr e, [EvConnect proxy (Err e)]) /\
    run (udp_associate env disp addr proxy) = (OErr e, [EvConnect proxy (Err e)]).
Proof.
  intros env disp addr proxy e He.
  split; unfold_client; rewrite He; reflexivity.
Qed.

Lemma proxy_unreachable_returns_connect_error_witness :
  run (connect (refusing_env (IoSimple ConnectionRefused)) display0 target0 proxy0) =
    (OErr (IoSimple ConnectionRefused),
     [EvConnect proxy0 (Err (IoSimple ConnectionRefused))]) /\
  run (udp_associate (refusing_env (IoSimple ConnectionRefused)) display0 target0 proxy0) =
    (OErr (IoSimple ConnectionRefused),
     [EvConnect proxy0 (Err (IoSimple ConnectionRefused))]).
Proof.
  apply proxy_unreachable_returns_connect_error. reflexivity.
Defined.

(** The stream is closed at most once: never when the operation returns a
    client (the client owns it) or when the proxy was unreachable, and
    exactly once on every other exit (error or panic). *)
Theorem stream_closed_once_on_failure :
  forall env disp addr proxy,
    drops (snd (run (connect env disp addr proxy))) =
      match fst (run (connect env disp addr proxy)) with
      | ORet _ => 0%nat
      | _ => if connected (snd (run (connect env disp addr proxy))) then 1%nat else 0%nat
      end /\
    drops (snd (run (udp_associate env disp addr proxy))) =
      match fst (run (udp_associate env disp addr proxy)) with
      | ORet _ => 0%nat
      | _ => if connected (snd (run (udp_associate env disp addr proxy))) then 1%nat else 0%nat
      end.
Proof.
  intros env disp addr proxy.
  split; unfold_client; env_cases; reflexivity.
Qed.

(** Every operation of a session acts on the one stream the TCP connection
    returned; no other stream is written, flushed, read or closed. *)
Theorem session_uses_one_stream :
  forall env disp addr proxy s,
    (hd_error (snd (run (connect env disp addr proxy))) = Some (EvConnect proxy (Ok s)) ->
     forall e, In e (snd (run (connect env disp addr proxy))) -> ev_stream e = Some s) /\
    (hd_error (snd (run (udp_associate env disp addr proxy))) = Some (EvConnect proxy (Ok s)) ->
     forall e, In e (snd (run (udp_associate env disp addr proxy))) -> ev_stream e = Some s).
Proof.
  intros env disp addr proxy s.
  split; unfold_client; env_cases; cbn; intros Hd ev Hin; try discriminate Hd;
    injection Hd as <-;
    repeat (destruct Hin as [<- | Hin]; [reflexivity |]); contradiction.
Qed.

Lemma session_uses_one_stream_witness :
  ev_stream (last (snd (run (connect (scripted_env SOCKS5_AUTH_METHOD_NONE Succeeded bound0)
                                display0 target0 proxy0))) (EvDrop 0%nat)) = Some 3%nat.
Proof.
  apply (proj1 (session_uses_one_stream
           (scripted_env SOCKS5_AUTH_METHOD_NONE Succeeded bound0) display0
           target0 proxy0 3%nat) eq_refl).
  cbn; tauto.
Defined.

(** ** The wrappers delegate every poll to the wrapped stream *)

Module DuplexProofs.
Import Duplex.

Section Delegation.

Context {TcpStream ProxyStream : Type}.
Context `{AsyncRead TcpStream} `{AsyncWrite TcpStream}.
Context `{AsyncRead ProxyStream} `{AsyncWrite ProxyStream}.

Lemma observe_socks5 (t : TcpStream) ops :
  observe {| stream := t |} ops = observe t ops.
Proof.
  revert t; induction ops as [| op ops IH]; intro t; [reflexivity |].
  destruct op; cbn;
    [ destruct (poll_read t cx buf) as [r [t' b']]
    | destruct (poll_write t cx buf) as [r t']
    | destruct (poll_flush t cx) as [r t']
    | destruct (poll_shutdown t cx) as [r t'] ];
    cbn; f_equal; apply IH.
Qed.

Lemma observe_server (p : ProxyStream) ops :
  observe {| server_stream := p |} ops = observe p ops.
Proof.
  revert p; induction ops as [| op ops IH]; intro p; [reflexivity |].
  destruct op; cbn;
    [ destruct (poll_read p cx buf) as [r [p' b']]
    | destruct (poll_write p cx buf) as [r p']
    | destruct (poll_flush p cx) as [r p']
    | destruct (poll_shutdown p cx) as [r p'] ];
    cbn; f_equal; apply IH.
Qed.

(** C8: every poll on a [Socks5Client] or a [ServerClient] returns the
    result of the same poll on the wrapped stream with the same arguments,
    and wraps its new state; so what a caller observes through a client is
    what it observes on the stream, and two clients over observationally
    equal streams are observationally equal. *)
Theorem clients_delegate_to_stream :
  forall (t : TcpStream) (p : ProxyStream),
    (forall ops, observe t ops = observe p ops) ->
    (forall cx buf,
       poll_read {| stream := t |} cx buf =
         (fst (poll_read t cx buf),
          ({| stream := fst (snd (poll_read t cx buf)) |},
           snd (snd (poll_read t cx buf)))) /\
       poll_read {| server_stream := p |} cx buf =
         (fst (poll_read p cx buf),
          ({| server_stream := fst (snd (poll_read p cx buf)) |},
           snd (snd (poll_read p cx buf))))) /\
    (forall cx buf,
       poll_write {| stream := t |} cx buf =
         (fst (poll_write t cx buf), {| stream := snd (poll_write t cx buf) |}) /\
       poll_write {| server_stream := p |} cx buf =
         (fst (poll_write p cx buf), {| server_stream := snd (poll_write p cx buf) |})) /\
    (forall cx,
       poll_flush {| stream := t |} cx =
         (fst (poll_flush t cx), {| stream := snd (poll_flush t cx) |}) /\
       poll_flush {| server_stream := p |} cx =
         (fst (poll_flush p cx), {| server_stream := snd (poll_flush p cx) |})) /\
    (forall cx,
       poll_shutdown {| stream := t |} cx =
         (fst (poll_shutdown t cx), {| stream := snd (poll_shutdown t cx) |}) /\
       poll_shutdown {| server_stream := p |} cx =
         (fst (poll_shutdown p cx), {| server_stream := snd (poll_shutdown p cx) |})) /\
    (forall ops, observe {| stream := t |} ops = observe t ops) /\
    (forall ops, observe {| server_stream := p |} ops = observe p ops) /\
    (forall ops, observe {| stream := t |} ops = observe {| server_stream := p |} ops).
Proof.
  intros t p Heq.
  split; [| split; [| split; [| split; [| split; [| split]]]]].
  - intros cx buf; cbn.
    destruct (poll_read t cx buf) as [r [t' b']];
    destruct (poll_read p cx buf) as [r2 [p' b2']]; auto.
  - intros cx buf; cbn.
    destruct (poll_write t cx buf); destruct (poll_write p cx buf); auto.
  - intros cx; cbn.
    destruct (poll_flush t cx); destruct (poll_flush p cx); auto.
  - intros cx; cbn.
    destruct (poll_shutdown t cx); destruct (poll_shutdown p cx); auto.
  - apply observe_socks5.
  - apply observe_server.
  - intro ops. rewrite observe_socks5, observe_server. apply Heq.
Qed.

(** [ServerClient::connect] adds nothing to the proxied stream: it returns
    the constructor's error unchanged, and on success a client through which
    every sequence of polls observes exactly what it observes on the stream
    the constructor returned. *)
Theorem ServerClient_connect_transparent :
  forall (SharedContext ServerConfig : Type)
         (connect_proxied : SharedContext -> ServerConfig -> Address ->
                            result ProxyStream io_error)
         context addr svr_cfg,
    match ServerClient_connect ProxyStream SharedContext ServerConfig
            connect_proxied context addr svr_cfg,
          connect_proxied context svr_cfg addr with
    | Ok c, Ok p => forall ops, observe c ops = observe p ops
    | Err e1, Err e2 => e1 = e2
    | _, _ => False
    end.
Proof.
  intros SharedContext ServerConfig connect_proxied context addr svr_cfg.
  unfold ServerClient_connect.
  destruct (connect_proxied context svr_cfg addr) as [p | e];
    [intro ops; apply observe_server | reflexivity].
Qed.

End Delegation.

Lemma clients_delegate_to_stream_witness :
  observe {| stream := @nil Z |} ops0 = observe {| server_stream := @nil Z |} ops0 /\
  observe {| stream := @nil Z |} ops0 =
    [ObsRead Pending [0; 0]; ObsWrite (Ready (Ok 3%nat)); ObsFlush (Ready (Ok tt));
     ObsRead (Ready (Ok 2%nat)) [104; 105]; ObsRead (Ready (Ok 1%nat)) [33; 0];
     ObsShutdown (Ready (Ok tt)); ObsShutdown (Ready (Ok tt))].
Proof.
  split; [| reflexivity].
  pose proof (@clients_delegate_to_stream (list Z) (list Z) _ _ _ _ [] []
                (fun ops => eq_refl)) as Hd.
  apply (proj2 (proj2 (proj2 (proj2 (proj2 (proj2 Hd)))))).
Defined.

End DuplexProofs.
